(** * luakit, clib/download.h: the WebKitDownload wrapper header

    The source is one C header.  It is embedded as the text it
    is (one string per line), and read the way a C translation unit reads
    it: comments are removed, preprocessing directives are recognised and
    executed against a macro table, and what is left is parsed as
    function prototypes.  Everything that is stated about the header is
    computed from its text by these functions. *)

From Stdlib Require Import ZArith Ascii String List Bool Lia.
From stdpp Require Import base decidable option strings gmap.
Import ListNotations.

Local Open Scope string_scope.

(** ** The source text *)

Module Source.

(** [src/clib/download.h], line by line (the last line has no newline
    character after it). *)
Definition download_h : list string :=
  [ "/*"
  ; " * clib/download.h - WebKitDownload wrapper header"
  ; " *"
  ; " * Copyright © 2011 Fabian Streitel <karottenreibe@gmail.com>"
  ; " * Copyright © 2011 Mason Larobina <mason.larobina@gmail.com>"
  ; " *"
  ; " * This program is free software: you can redistribute it and/or modify"
  ; " * it under the terms of the GNU General Public License as published by"
  ; " * the Free Software Foundation, either version 3 of the License, or"
  ; " * (at your option) any later version."
  ; " *"
  ; " * This program is distributed in the hope that it will be useful,"
  ; " * but WITHOUT ANY WARRANTY; without even the implied warranty of"
  ; " * MERCHANTABILITY or FITNESS FOR A PARTICULAR PURPOSE.  See the"
  ; " * GNU General Public License for more details."
  ; " *"
  ; " * You should have received a copy of the GNU General Public License"
  ; " * along with this program.  If not, see <http://www.gnu.org/licenses/>."
  ; " *"
  ; " */"
  ; ""
  ; "#ifndef LUAKIT_CLIB_DOWNLOAD_H"
  ; "#define LUAKIT_CLIB_DOWNLOAD_H"
  ; ""
  ; "#include <lua.h>"
  ; "#include <webkit2/webkit2.h>"
  ; ""
  ; "void download_class_setup(lua_State*);"
  ; "gint luaH_download_push(lua_State*, WebKitDownload*);"
  ; ""
  ; "#endif"
  ; ""
  ; "// vim: ft=c:et:sw=4:ts=8:sts=4:tw=80"
  ].

(** The macro of the include guard, as the header spells it. *)
Definition LUAKIT_CLIB_DOWNLOAD_H : string := "LUAKIT_CLIB_DOWNLOAD_H".

End Source.

(** ** Reading C text: comments, tokens, directives, prototypes *)

Module CLex.

Local Open Scope char_scope.

Definition chars := list ascii.

Definition is_space (c : ascii) : bool :=
  match c with
  | " " | "009" | "010" | "011" | "012" | "013" => true
  | _ => false
  end.

Definition is_ident_char (c : ascii) : bool :=
  let n := nat_of_ascii c in
  (Nat.leb 65 n && Nat.leb n 90) || (Nat.leb 97 n && Nat.leb n 122)
  || (Nat.leb 48 n && Nat.leb n 57) || Nat.eqb n 95.

(** Translation phase 3 on one line: a comment becomes one space.
    [in_block] says whether the line starts inside a [/* */] comment;
    the result says whether it ends inside one.  (The header has no
    character or string literal, and the reader does not look for
    them.) *)
Fixpoint strip_line (in_block : bool) (cs : chars) : chars * bool :=
  match cs with
  | [] => ([], in_block)
  | c :: rest =>
      if in_block then
        match c, rest with
        | "*", "/" :: rest' =>
            let (out, b) := strip_line false rest' in (" " :: out, b)
        | _, _ => strip_line true rest
        end
      else
        match c, rest with
        | "/", "*" :: rest' => strip_line true rest'
        | "/", "/" :: _ => ([" "], false)
        | _, _ => let (out, b) := strip_line false rest in (c :: out, b)
        end
  end.

Fixpoint strip_comments (in_block : bool) (ls : list string) : list chars :=
  match ls with
  | [] => []
  | l :: ls' =>
      let (out, b) := strip_line in_block (list_ascii_of_string l) in
      out :: strip_comments b ls'
  end.

Inductive token : Type :=
  | TIdent (s : string)
  | TPunct (c : ascii).

Definition flush (acc : chars) (ts : list token) : list token :=
  match acc with
  | [] => ts
  | _ => TIdent (string_of_list_ascii (rev acc)) :: ts
  end.

(** [acc] holds, reversed, the identifier being read. *)
Fixpoint tokens_from (acc : chars) (cs : chars) : list token :=
  match cs with
  | [] => flush acc []
  | c :: rest =>
      if is_ident_char c then tokens_from (c :: acc) rest
      else if is_space c then flush acc (tokens_from [] rest)
      else flush acc (TPunct c :: tokens_from [] rest)
  end.

Definition tokens (cs : chars) : list token := tokens_from [] cs.

Fixpoint skip_spaces (cs : chars) : chars :=
  match cs with
  | c :: rest => if is_space c then skip_spaces rest else cs
  | [] => []
  end.

Fixpoint take_ident (cs : chars) : chars * chars :=
  match cs with
  | c :: rest =>
      if is_ident_char c
      then let (w, r) := take_ident rest in (c :: w, r)
      else ([], cs)
  | [] => ([], [])
  end.

Fixpoint take_until (stop : ascii) (cs : chars) : option (chars * chars) :=
  match cs with
  | [] => None
  | c :: rest =>
      if Ascii.eqb c stop then Some ([], rest)
      else match take_until stop rest with
           | Some (w, r) => Some (c :: w, r)
           | None => None
           end
  end.

End CLex.

(** ** Directives and declarations *)

Module CSyntax.
Import CLex.

Local Open Scope char_scope.

(** The preprocessing directives the reader tells apart.  [Ddefine]
    keeps the replacement text; the guard's is empty. *)
Inductive directive : Type :=
  | Difndef (m : string)
  | Ddefine (m : string) (body : string)
  | Dendif
  | Dinclude (h : string)
  | Dunknown (name : string).

Inductive ctype : Type :=
  | TVoid
  | TNamed (n : string)
  | TPtr (t : ctype).

(** A function prototype: [fd_ret fd_name(fd_params);]. *)
Record fun_decl : Type := FunDecl
  { fd_ret : ctype
  ; fd_name : string
  ; fd_params : list ctype }.

Inductive line_kind : Type :=
  | KBlank
  | KDirective (d : directive)
  | KPrototype (f : fun_decl)
  | KOther (ts : list token).

Definition directive_eq_dec (a b : directive) : {a = b} + {a <> b}.
Proof. repeat decide equality. Defined.

Definition ctype_eq_dec (a b : ctype) : {a = b} + {a <> b}.
Proof. repeat decide equality. Defined.

Definition str (cs : chars) : string := string_of_list_ascii cs.

(** What follows the [#] of a directive line. *)
Definition parse_directive (cs : chars) : directive :=
  let (name, rest) := take_ident (skip_spaces cs) in
  let arg := skip_spaces rest in
  if String.eqb (str name) "ifndef" then Difndef (str (fst (take_ident arg)))
  else if String.eqb (str name) "define" then
    let (m, body) := take_ident arg in Ddefine (str m) (str (skip_spaces body))
  else if String.eqb (str name) "endif" then Dendif
  else if String.eqb (str name) "include" then
    match arg with
    | "<" :: path =>
        match take_until ">" path with
        | Some (h, _) => Dinclude (str h)
        | None => Dunknown (str name)
        end
    | _ => Dunknown (str name)
    end
  else Dunknown (str name).

Definition base_type (s : string) : ctype :=
  if String.eqb s "void" then TVoid else TNamed s.

(** [t] followed by any number of [*]. *)
Fixpoint parse_stars (t : ctype) (ts : list token) : ctype * list token :=
  match ts with
  | TPunct "*" :: rest => parse_stars (TPtr t) rest
  | _ => (t, ts)
  end.

(** One parameter: a type, and the name the prototype may give it. *)
Definition parse_param (ts : list token) : option ctype :=
  match ts with
  | TIdent b :: rest =>
      match parse_stars (base_type b) rest with
      | (t, []) | (t, [TIdent _]) => Some t
      | _ => None
      end
  | _ => None
  end.

(** Splits at the commas; [cur] holds, reversed, the current group. *)
Fixpoint split_commas (cur : list token) (ts : list token) : list (list token) :=
  match ts with
  | [] => [rev cur]
  | TPunct "," :: rest => rev cur :: split_commas [] rest
  | t :: rest => split_commas (t :: cur) rest
  end.

Fixpoint take_to_rparen (ts : list token) : option (list token * list token) :=
  match ts with
  | [] => None
  | TPunct ")" :: rest => Some ([], rest)
  | t :: rest =>
      match take_to_rparen rest with
      | Some (inside, after) => Some (t :: inside, after)
      | None => None
      end
  end.

Fixpoint all_some {A : Type} (l : list (option A)) : option (list A) :=
  match l with
  | [] => Some []
  | Some x :: l' =>
      match all_some l' with Some xs => Some (x :: xs) | None => None end
  | None :: _ => None
  end.

Definition parse_params (inside : list token) : option (list ctype) :=
  match inside with
  | [] | [TIdent "void"%string] => Some []
  | _ => all_some (List.map parse_param (split_commas [] inside))
  end.

(** A prototype ends at its [;]: a line with a body, an initialiser or
    anything after the closing parenthesis but [;] is not one. *)
Definition parse_prototype (ts : list token) : option fun_decl :=
  match ts with
  | TIdent r :: rest =>
      match parse_stars (base_type r) rest with
      | (ret, TIdent name :: TPunct "(" :: rest') =>
          match take_to_rparen rest' with
          | Some (inside, [TPunct ";"]) =>
              match parse_params inside with
              | Some ps => Some (FunDecl ret name ps)
              | None => None
              end
          | _ => None
          end
      | _ => None
      end
  | _ => None
  end.

(** A line whose comments are already removed. *)
Definition classify (cs : chars) : line_kind :=
  match skip_spaces cs with
  | [] => KBlank
  | "#" :: rest => KDirective (parse_directive rest)
  | code =>
      match parse_prototype (tokens code) with
      | Some f => KPrototype f
      | None => KOther (tokens code)
      end
  end.

(** A file: its lines, comments removed, each classified. *)
Definition read_file (ls : list string) : list line_kind :=
  List.map classify (strip_comments false ls).

Fixpoint prototypes (ks : list line_kind) : list fun_decl :=
  match ks with
  | [] => []
  | KPrototype f :: ks' => f :: prototypes ks'
  | _ :: ks' => prototypes ks'
  end.

Fixpoint directives (ks : list line_kind) : list directive :=
  match ks with
  | [] => []
  | KDirective d :: ks' => d :: directives ks'
  | _ :: ks' => directives ks'
  end.

Fixpoint includes (ds : list directive) : list string :=
  match ds with
  | [] => []
  | Dinclude h :: ds' => h :: includes ds'
  | _ :: ds' => includes ds'
  end.

(** The tokens of the code of a file, directive lines left out. *)
Definition code_tokens (ls : list string) : list token :=
  List.concat
    (List.map (fun cs => match skip_spaces cs with
                         | "#" :: _ => []
                         | code => tokens code
                         end)
              (strip_comments false ls)).

End CSyntax.

(** ** What the header declares *)

Module Header.
Import Source CLex CSyntax.

Definition lines : list line_kind := read_file download_h.

Definition declarations : list fun_decl := prototypes lines.

Fixpoint lookup_decl (name : string) (fs : list fun_decl) : option fun_decl :=
  match fs with
  | [] => None
  | f :: fs' => if String.eqb (fd_name f) name then Some f else lookup_decl name fs'
  end.

(** The two prototypes of line 28 and line 29, parsed. *)
Definition lua_State_ptr : ctype := TPtr (TNamed "lua_State").
Definition WebKitDownload_ptr : ctype := TPtr (TNamed "WebKitDownload").

Definition setup_prototype : fun_decl :=
  FunDecl TVoid "download_class_setup" [lua_State_ptr].

Definition push_prototype : fun_decl :=
  FunDecl (TNamed "gint") "luaH_download_push" [lua_State_ptr; WebKitDownload_ptr].

(** The names a token list gives a body to: [name ( ... ) {]. *)
Fixpoint definitions (ts : list token) : list string :=
  match ts with
  | [] => []
  | TIdent name :: ((TPunct "("%char :: rest) as ts') =>
      match take_to_rparen rest with
      | Some (_, TPunct "{"%char :: _) => name :: definitions ts'
      | _ => definitions ts'
      end
  | _ :: ts' => definitions ts'
  end.

(** Lines that only declare an interface: nothing, the include guard's
    directives (a [#define] without replacement text), an [#include],
    or a prototype. *)
Definition is_interface_line (k : line_kind) : bool :=
  match k with
  | KBlank => true
  | KDirective (Difndef _) => true
  | KDirective (Ddefine _ body) => String.eqb body ""
  | KDirective Dendif => true
  | KDirective (Dinclude _) => true
  | KDirective (Dunknown _) => false
  | KPrototype _ => true
  | KOther _ => false
  end.

(** The keywords of C that start a type definition, a statement or a
    storage class. *)
Definition logic_keywords : list string :=
  [ "struct"; "union"; "enum"; "typedef"
  ; "if"; "else"; "while"; "for"; "do"; "switch"; "case"; "default"
  ; "goto"; "return"; "break"; "continue"; "sizeof"
  ; "static"; "extern"; "inline"; "volatile"; "register"; "_Atomic"; "_Thread_local" ].

(** The punctuation of bodies, initialisers and arrays. *)
Definition logic_punct : list ascii :=
  [ "{"; "}"; "="; "["; "]"; "+"; "-"; "?"; ":"; "<"; ">"; "!"; "&"; "|" ]%char.

Definition is_logic_token (t : token) : bool :=
  match t with
  | TIdent s => existsb (String.eqb s) logic_keywords
  | TPunct c => existsb (Ascii.eqb c) logic_punct
  end.

End Header.

(** ** The preprocessor on the header *)

Module Cpp.
Import Source CLex CSyntax.

(** A translation unit while it is preprocessed: the macro table (name
    to replacement text), the stack of open conditionals (one flag per
    [#ifndef], [true] when its group is taken) and the lines passed on
    to the compiler so far. *)
Record tu : Type := TU
  { macros : gmap string string
  ; conds : list bool
  ; out : list line_kind }.

Definition defined (m : string) (ms : gmap string string) : bool :=
  bool_decide (is_Some (ms !! m)).

(** Lines are processed only when every open conditional is taken. *)
Definition active (t : tu) : bool := List.forallb (fun b => b) (conds t).

Section Preprocessor.

(** The headers named in angle brackets belong to Lua and WebKit2 and
    are a parameter: [system_header h ms] is the macro table [h] leaves
    behind when it is included under [ms], and the lines it contributes.
    Lines are passed on as they are read, before macro replacement. *)
Variable system_header : string -> gmap string string -> gmap string string * list line_kind.

Definition cpp_line (t : tu) (k : line_kind) : tu :=
  match k with
  | KBlank => t
  | KDirective (Difndef m) =>
      TU (macros t) (negb (defined m (macros t)) :: conds t) (out t)
  | KDirective Dendif => TU (macros t) (tail (conds t)) (out t)
  | KDirective (Ddefine m body) =>
      if active t then TU (<[m := body]> (macros t)) (conds t) (out t) else t
  | KDirective (Dinclude h) =>
      if active t then
        let r := system_header h (macros t) in
        TU (fst r) (conds t) (out t ++ snd r)
      else t
  | KDirective (Dunknown _) => t
  | KPrototype _ | KOther _ =>
      if active t then TU (macros t) (conds t) (out t ++ [k]) else t
  end.

Definition include_lines (ks : list line_kind) (t : tu) : tu :=
  fold_left cpp_line ks t.

(** [#include "clib/download.h"] *)
Definition include_header (t : tu) : tu := include_lines Header.lines t.

Definition include_times (n : nat) (t : tu) : tu :=
  Nat.iter n include_header t.

End Preprocessor.

(** The directives that open or close a conditional group. *)
Definition opens_or_closes (k : line_kind) : bool :=
  match k with
  | KDirective (Difndef _) | KDirective Dendif => true
  | _ => false
  end.

(** A translation unit that has read nothing yet. *)
Definition empty_tu : tu := TU ∅ [] [].

(** System headers for the examples that define nothing and contribute
    nothing. *)
Definition silent_system_header (h : string) (ms : gmap string string)
  : gmap string string * list line_kind := (ms, []).


(** System headers for the examples: each defines a guard macro of its
    own (named after the header) and contributes one line. *)
Definition guarded_system_header (h : string) (ms : gmap string string)
  : gmap string string * list line_kind :=
  if defined h ms then (ms, [])
  else (<[h := ""]> ms, [KOther [TIdent h]]).

End Cpp.

(** ** GLib's [gint] *)

Module GLib.
Import CSyntax.

(** [gint] comes from GLib's [gtypes.h], an external header:
    [typedef int gint;]. *)
Definition typedefs : list (string * string) := [("gint", "int")].

Definition resolve (n : string) : string :=
  match List.find (fun p => String.eqb (fst p) n) typedefs with
  | Some (_, target) => target
  | None => n
  end.

Definition is_integer_type (t : ctype) : bool :=
  match t with
  | TNamed n => String.eqb (resolve n) "int"
  | _ => false
  end.

Local Open Scope Z_scope.

Section Width.

(** The number of bits of the platform's [int]. *)
Variable int_bits : Z.

Definition gint_min : Z := - 2 ^ (int_bits - 1).
Definition gint_max : Z := 2 ^ (int_bits - 1) - 1.

Definition in_gint (z : Z) : Prop := gint_min <= z <= gint_max.

(** The value a [gint] holds for [z]: two's complement wrap-around. *)
Definition to_gint (z : Z) : Z :=
  (z + 2 ^ (int_bits - 1)) mod 2 ^ int_bits - 2 ^ (int_bits - 1).

(** The values of a type, for the types that have a range. *)
Definition type_range (t : ctype) : option (Z * Z) :=
  if is_integer_type t then Some (gint_min, gint_max) else None.

End Width.

End GLib.

(** ** The scripting runtime *)

Module Lua.

(** The address of a native [WebKitDownload] object. *)
Definition WebKitDownload : Type := N.

Inductive value : Type :=
  | VClass (name : string)
  | VObject (class : string) (handle : WebKitDownload).

(** The part of a [lua_State] the two routines are described on: the
    evaluation stack (top first) and the global environment. *)
Record lua_State : Type := LuaState
  { stack : list value
  ; globals : gmap string value }.

Definition lua_push (v : value) (L : lua_State) : lua_State :=
  LuaState (v :: stack L) (globals L).

Definition lua_setglobal (k : string) (v : value) (L : lua_State) : lua_State :=
  LuaState (stack L) (<[k := v]> (globals L)).

(** Modelled from the spec: the body of [download_class_setup]
    (clib/download.c) is not among the sources, only its prototype is.  The
    spec: "a setup routine that registers a type/class into a scripting
    runtime's global environment", "registers the download type into the
    scripting runtime; no inputs beyond the runtime handle, no documented
    return value". *)
Definition download_class_setup (L : lua_State) : lua_State :=
  lua_setglobal "download" (VClass "download") L.

(** Modelled from the spec: the body of [luaH_download_push]
    (clib/download.c) is not among the sources, only its prototype is.  The
    spec: "a push routine that takes a native download handle and exposes
    it as a scripting-visible reference, returning a count/index
    conventionally used by such runtimes to report how many values were
    placed on an evaluation stack", "wraps a native download handle for
    scripting use; returns a count of values pushed". *)
Definition luaH_download_push (L : lua_State) (d : WebKitDownload) : lua_State * Z :=
  (lua_push (VObject "download" d) L, 1%Z).

End Lua.

(** * Properties *)

Import Source CLex CSyntax Header.

(** ** The header, read *)

(** The 33 lines, classified: the licence comment and the modeline are
    blank once comments are removed. *)
Lemma lines_eq :
  lines =
    (repeat KBlank 21 ++
    [ KDirective (Difndef LUAKIT_CLIB_DOWNLOAD_H)
    ; KDirective (Ddefine LUAKIT_CLIB_DOWNLOAD_H "")
    ; KBlank
    ; KDirective (Dinclude "lua.h")
    ; KDirective (Dinclude "webkit2/webkit2.h")
    ; KBlank
    ; KPrototype setup_prototype
    ; KPrototype push_prototype
    ; KBlank
    ; KDirective Dendif
    ; KBlank
    ; KBlank ])%list.
Proof. vm_compute. reflexivity. Qed.

Lemma declarations_eq : declarations = [setup_prototype; push_prototype].
Proof. unfold declarations. rewrite lines_eq. reflexivity. Qed.

Lemma code_tokens_eq :
  code_tokens download_h =
    [ TIdent "void"; TIdent "download_class_setup"; TPunct "("
    ; TIdent "lua_State"; TPunct "*"; TPunct ")"; TPunct ";"
    ; TIdent "gint"; TIdent "luaH_download_push"; TPunct "("
    ; TIdent "lua_State"; TPunct "*"; TPunct ","
    ; TIdent "WebKitDownload"; TPunct "*"; TPunct ")"; TPunct ";" ]%char.
Proof. vm_compute. reflexivity. Qed.

(** The reader does tell a definition from a prototype. *)
Example definitions_sees_body :
  definitions (tokens (list_ascii_of_string "gint f(lua_State *L) { return 1; }")) = ["f"]
  /\ classify (list_ascii_of_string "gint f(lua_State *L) { return 1; }")
     = KOther (tokens (list_ascii_of_string "gint f(lua_State *L) { return 1; }")).
Proof. split; vm_compute; reflexivity. Qed.

Example strip_line_inline_comment :
  strip_line false (list_ascii_of_string "a/* b */c // d")
  = (list_ascii_of_string "a c  ", false).
Proof. vm_compute. reflexivity. Qed.

(** C1: what the header declares is exactly two function prototypes,
    [download_class_setup] (the class setup routine) and
    [luaH_download_push] (the routine that pushes a native download
    handle); no line of the header is code other than these two, and
    every declaration of the header is one of the two. *)
Theorem header_declares_exactly_two :
  declarations = [setup_prototype; push_prototype]
  /\ length declarations = 2
  /\ Forall (fun k => forall ts, k <> KOther ts) lines
  /\ forall f, In f declarations -> f = setup_prototype \/ f = push_prototype.
Proof.
  rewrite declarations_eq, lines_eq. repeat split.
  - apply List.Forall_app. split.
    + apply List.Forall_forall. intros k Hk ts.
      apply repeat_spec in Hk. subst k. discriminate.
    + repeat constructor; discriminate.
  - intros f [<- | [<- | []]]; [left | right]; reflexivity.
Qed.

(** C3: the setup routine is declared with exactly one parameter, the
    scripting-runtime handle, and returns [void]. *)
Theorem setup_signature :
  exists f, lookup_decl "download_class_setup" declarations = Some f
    /\ fd_params f = [lua_State_ptr]
    /\ length (fd_params f) = 1
    /\ fd_ret f = TVoid.
Proof.
  exists setup_prototype. rewrite declarations_eq. repeat split.
Qed.

(** C2, as the claim words it: a declared entry point named
    [download_push] with the two inputs and an integer result.  The
    header declares no function of that name. *)
Lemma no_entry_point_named_download_push :
  ~ exists f, In f declarations
      /\ fd_name f = "download_push"
      /\ fd_params f = [lua_State_ptr; WebKitDownload_ptr]
      /\ GLib.is_integer_type (fd_ret f) = true.
Proof.
  rewrite declarations_eq.
  intros (f & [<- | [<- | []]] & Hname & _); discriminate Hname.
Qed.

(** C2, amended: the push entry point is declared under the name
    [luaH_download_push]; it takes exactly two inputs, the scripting
    runtime state and then the native download handle, and returns an
    integer ([gint]). *)
Theorem push_signature :
  lookup_decl "download_push" declarations = None
  /\ exists f, lookup_decl "luaH_download_push" declarations = Some f
    /\ fd_params f = [lua_State_ptr; WebKitDownload_ptr]
    /\ length (fd_params f) = 2
    /\ fd_ret f = TNamed "gint"
    /\ GLib.is_integer_type (fd_ret f) = true.
Proof.
  rewrite declarations_eq. split; [reflexivity |].
  exists push_prototype. repeat split.
Qed.

(** C6: the header has 33 lines and gives no function a body: no name
    is followed by a parameter list and an opening brace, no brace
    occurs in its code at all, and in particular neither declared
    function is defined. *)
Theorem header_has_no_body :
  length download_h = 33
  /\ definitions (code_tokens download_h) = []
  /\ ~ In (TPunct "{"%char) (code_tokens download_h)
  /\ Forall (fun f => ~ In (fd_name f) (definitions (code_tokens download_h)))
       declarations.
Proof.
  rewrite declarations_eq, code_tokens_eq. repeat split.
  - cbn. intros H. repeat (destruct H as [H | H]; [discriminate H |]). exact H.
  - repeat constructor; cbn; tauto.
Qed.

(** C7: the header is interface declarations only.  Every line is
    blank (or a comment), a directive of the include guard, an
    [#include], or a function prototype; its code holds no keyword of a
    type definition, a statement or a storage class, and no punctuation
    of a body, an initialiser or an expression: there is no data
    structure, no algorithm and no state to transition, block on or
    own. *)
Theorem header_is_declarations_only :
  Forall (fun k => is_interface_line k = true) lines
  /\ Forall (fun t => is_logic_token t = false) (code_tokens download_h).
Proof.
  split.
  - apply List.Forall_forall. intros k Hk.
    destruct (is_interface_line k) eqn:E; [reflexivity | exfalso].
    assert (forallb is_interface_line lines = true) as Hall by (vm_compute; reflexivity).
    rewrite forallb_forall in Hall. specialize (Hall k Hk). congruence.
  - rewrite code_tokens_eq. repeat constructor.
Qed.

(** C9: the header fixes the external types of the binding.  It
    includes Lua's [lua.h] and WebKit2's [webkit2/webkit2.h]; in both
    prototypes the scripting runtime state, the first parameter, is a
    [lua_State*]; the native download handle, the second parameter of
    the push routine, is a [WebKitDownload*]; and no parameter of either
    prototype has any other type. *)
Theorem external_types_fixed :
  includes (directives lines) = ["lua.h"; "webkit2/webkit2.h"]
  /\ Forall (fun f => List.hd_error (fd_params f) = Some (TPtr (TNamed "lua_State")))
       declarations
  /\ Forall (fun f => Forall (fun t => t = TPtr (TNamed "lua_State")
                                    \/ t = TPtr (TNamed "WebKitDownload"))
                        (fd_params f))
       declarations
  /\ exists f, lookup_decl "luaH_download_push" declarations = Some f
       /\ nth_error (fd_params f) 1 = Some (TPtr (TNamed "WebKitDownload")).
Proof.
  rewrite declarations_eq, lines_eq. split; [reflexivity |].
  split; [repeat constructor |].
  split.
  - repeat first [ apply List.Forall_nil | apply List.Forall_cons
                 | left; reflexivity | right; reflexivity ].
  - exists push_prototype. split; reflexivity.
Qed.

(** ** Repeating a step *)

Section Iterate.
Context {A : Type} (f : A -> A).

Lemma iter_once (x : A) : Nat.iter 1 f x = f x.
Proof. reflexivity. Qed.

(** A step that changes nothing when it is taken again changes
    nothing however often it is taken again. *)
Lemma iter_idempotent (n : nat) (x : A) :
  f (f x) = f x -> Nat.iter (S n) f x = f x.
Proof.
  intros Hidem. induction n as [| n IH]; [reflexivity |].
  change (f (Nat.iter (S n) f x) = f x). rewrite IH. exact Hidem.
Qed.

End Iterate.

(** ** The include guard *)

Section IncludeGuard.
Import Cpp.

Variable system_header : string -> gmap string string -> gmap string string * list line_kind.

(** No system header takes the guard's macro away. *)
Hypothesis system_header_keeps_guard :
  forall h ms,
    defined LUAKIT_CLIB_DOWNLOAD_H ms = true ->
    defined LUAKIT_CLIB_DOWNLOAD_H (fst (system_header h ms)) = true.

Local Abbreviation cpp_line := (cpp_line system_header).
Local Abbreviation include_header := (include_header system_header).
Local Abbreviation include_times := (include_times system_header).

Lemma defined_insert_eq m body (ms : gmap string string) :
  defined m (<[m := body]> ms) = true.
Proof.
  unfold defined. apply bool_decide_eq_true.
  rewrite lookup_insert_eq. eauto.
Qed.

Lemma active_cons b cs o (ms : gmap string string) :
  active (TU ms (b :: cs) o) = b && active (TU ms cs o).
Proof. reflexivity. Qed.

(** One line at a time. *)

Lemma cpp_blanks n t : fold_left cpp_line (repeat KBlank n) t = t.
Proof. induction n as [| n IH]; [reflexivity | exact IH]. Qed.

Lemma cpp_blank t : cpp_line t KBlank = t.
Proof. reflexivity. Qed.

Lemma cpp_ifndef ms cs o m :
  cpp_line (TU ms cs o) (KDirective (Difndef m))
  = TU ms (negb (defined m ms) :: cs) o.
Proof. reflexivity. Qed.

Lemma cpp_endif ms b cs o :
  cpp_line (TU ms (b :: cs) o) (KDirective Dendif) = TU ms cs o.
Proof. reflexivity. Qed.

Lemma cpp_define ms cs o m body :
  active (TU ms cs o) = true ->
  cpp_line (TU ms cs o) (KDirective (Ddefine m body)) = TU (<[m := body]> ms) cs o.
Proof. intros Hon. unfold Cpp.cpp_line. rewrite Hon. reflexivity. Qed.

Lemma cpp_include ms cs o h :
  active (TU ms cs o) = true ->
  cpp_line (TU ms cs o) (KDirective (Dinclude h))
  = TU (fst (system_header h ms)) cs (o ++ snd (system_header h ms)).
Proof. intros Hon. unfold Cpp.cpp_line. rewrite Hon. reflexivity. Qed.

Lemma cpp_prototype ms cs o f :
  active (TU ms cs o) = true ->
  cpp_line (TU ms cs o) (KPrototype f) = TU ms cs (o ++ [KPrototype f]).
Proof. intros Hon. unfold Cpp.cpp_line. rewrite Hon. reflexivity. Qed.

(** In a skipped group only the conditionals themselves are looked at. *)
Lemma cpp_line_off ms cs o k :
  active (TU ms cs o) = false ->
  opens_or_closes k = false ->
  cpp_line (TU ms cs o) k = TU ms cs o.
Proof.
  intros Hoff Hk. destruct k as [| [] | |]; unfold Cpp.cpp_line;
    try rewrite Hoff; try discriminate Hk; reflexivity.
Qed.

(** Under a defined guard, or inside a group that is skipped, the
    header contributes nothing and leaves the unit as it was. *)
Lemma include_header_skipped t :
  defined LUAKIT_CLIB_DOWNLOAD_H (macros t) = true \/ active t = false ->
  include_header t = t.
Proof.
  destruct t as [ms cs o]. intros Hskip.
  unfold Cpp.include_header, include_lines. rewrite lines_eq.
  rewrite fold_left_app, cpp_blanks. cbn [fold_left].
  rewrite cpp_ifndef.
  assert (active (TU ms (negb (defined LUAKIT_CLIB_DOWNLOAD_H ms) :: cs) o) = false)
    as Hoff.
  { rewrite active_cons. cbn [macros] in Hskip.
    destruct Hskip as [-> | ->]; [reflexivity | apply andb_false_r]. }
  rewrite !(cpp_line_off _ _ _ _ Hoff) by reflexivity.
  apply cpp_endif.
Qed.

(** The first inclusion, guard undefined: the guard is defined, the
    two system headers are read, the two prototypes are passed on. *)
Lemma include_header_first ms cs o :
  defined LUAKIT_CLIB_DOWNLOAD_H ms = false ->
  active (TU ms cs o) = true ->
  include_header (TU ms cs o) =
    let r1 := system_header "lua.h" (<[LUAKIT_CLIB_DOWNLOAD_H := ""]> ms) in
    let r2 := system_header "webkit2/webkit2.h" (fst r1) in
    TU (fst r2) cs
       ((((o ++ snd r1) ++ snd r2) ++ [KPrototype setup_prototype])
          ++ [KPrototype push_prototype])%list.
Proof.
  intros Hundef Hact.
  assert (forall ms' o', active (TU ms' (true :: cs) o') = true) as Hon.
  { intros. rewrite active_cons. exact Hact. }
  unfold Cpp.include_header, include_lines. rewrite lines_eq.
  rewrite fold_left_app, cpp_blanks. cbn [fold_left].
  rewrite !cpp_blank, cpp_ifndef, Hundef. cbn [negb].
  rewrite cpp_define by apply Hon.
  rewrite !(cpp_include _ _ _ _ (Hon _ _)).
  rewrite !(cpp_prototype _ _ _ _ (Hon _ _)).
  apply cpp_endif.
Qed.

(** Once the header has been included, its guard is defined, unless
    the inclusion stood in a skipped group. *)
Lemma include_header_guards t :
  defined LUAKIT_CLIB_DOWNLOAD_H (macros (include_header t)) = true
  \/ active (include_header t) = false.
Proof.
  destruct (defined LUAKIT_CLIB_DOWNLOAD_H (macros t)) eqn:Hdef.
  { rewrite include_header_skipped by auto. auto. }
  destruct (active t) eqn:Hact.
  2:{ rewrite include_header_skipped by auto. auto. }
  left. destruct t as [ms cs o]. cbn [macros] in Hdef.
  rewrite include_header_first by assumption. cbn [macros].
  apply system_header_keeps_guard, system_header_keeps_guard.
  apply defined_insert_eq.
Qed.

(** C8: the inclusion of the header is idempotent.  In any
    translation unit, including it one time more than once, however
    often, leaves the unit (the lines passed on to the compiler, the
    macro table and the open conditionals) exactly as including it
    once does. *)
Theorem include_idempotent (t : tu) (n : nat) :
  include_times (S n) t = include_header t
  /\ out (include_times (S n) t) = out (include_times 1 t).
Proof.
  unfold Cpp.include_times.
  rewrite iter_idempotent, iter_once; [split; reflexivity |].
  apply include_header_skipped, include_header_guards.
Qed.

End IncludeGuard.

Lemma guarded_system_header_keeps_guard h ms :
  Cpp.defined LUAKIT_CLIB_DOWNLOAD_H ms = true ->
  Cpp.defined LUAKIT_CLIB_DOWNLOAD_H (fst (Cpp.guarded_system_header h ms)) = true.
Proof.
  intros Hdef. unfold Cpp.guarded_system_header.
  destruct (Cpp.defined h ms); [exact Hdef |].
  cbn [fst]. unfold Cpp.defined in *.
  apply bool_decide_eq_true. apply bool_decide_eq_true in Hdef.
  destruct Hdef as [v Hv].
  destruct (decide (h = LUAKIT_CLIB_DOWNLOAD_H)) as [-> | Hne].
  - rewrite lookup_insert_eq. eauto.
  - rewrite lookup_insert_ne by exact Hne. eauto.
Qed.

(** A fresh translation unit that includes the header three times gets
    the contributions of the two system headers and the two prototypes,
    once. *)
Example include_thrice_in_empty_unit :
  Cpp.out (Cpp.include_times Cpp.guarded_system_header 3 Cpp.empty_tu)
  = [ KOther [TIdent "lua.h"]; KOther [TIdent "webkit2/webkit2.h"]
    ; KPrototype setup_prototype; KPrototype push_prototype ].
Proof. vm_compute. reflexivity. Qed.

Lemma include_idempotent_witness :
  (forall h ms,
      Cpp.defined LUAKIT_CLIB_DOWNLOAD_H ms = true ->
      Cpp.defined LUAKIT_CLIB_DOWNLOAD_H (fst (Cpp.guarded_system_header h ms)) = true)
  /\ Cpp.include_times Cpp.guarded_system_header 3 Cpp.empty_tu
    = Cpp.include_header Cpp.guarded_system_header Cpp.empty_tu
  /\ Cpp.out (Cpp.include_times Cpp.guarded_system_header 3 Cpp.empty_tu)
     = Cpp.out (Cpp.include_times Cpp.guarded_system_header 1 Cpp.empty_tu).
Proof.
  split; [exact guarded_system_header_keeps_guard |].
  exact (include_idempotent Cpp.guarded_system_header
           guarded_system_header_keeps_guard Cpp.empty_tu 2).
Defined.

(** ** The range of the push routine's result *)

Section GIntRange.
Import GLib.
Local Open Scope Z_scope.

Variable int_bits : Z.

(** C guarantees an [int] of 16 bits or more. *)
Hypothesis int_bits_min : 16 <= int_bits.

Local Abbreviation half := (2 ^ (int_bits - 1)).

Lemma half_pos : 0 < half.
Proof. apply Z.pow_pos_nonneg; lia. Qed.

Lemma pow_int_bits : 2 ^ int_bits = 2 * half.
Proof.
  replace int_bits with (Z.succ (int_bits - 1)) at 1 by lia.
  apply Z.pow_succ_r. lia.
Qed.

Lemma to_gint_in_range z : in_gint int_bits (to_gint int_bits z).
Proof.
  unfold in_gint, to_gint, gint_min, gint_max.
  pose proof half_pos as Hh.
  pose proof (Z.mod_pos_bound (z + half) (2 ^ int_bits)) as Hm.
  rewrite pow_int_bits in *. lia.
Qed.

Lemma to_gint_small z : in_gint int_bits z -> to_gint int_bits z = z.
Proof.
  unfold in_gint, to_gint, gint_min, gint_max. intros Hz.
  rewrite Z.mod_small; [lia |]. rewrite pow_int_bits. lia.
Qed.

(** C10: the push routine is declared to return [gint], GLib's name
    for the signed [int].  Negative results are representable (the
    least [gint] is negative, and -1 is a [gint]); whatever the routine
    returns lies in the signed range; a count is reported unchanged
    exactly when it lies in that range, and the first count above it
    wraps to the least [gint]. *)
Theorem push_return_range :
  exists f, lookup_decl "luaH_download_push" declarations = Some f
    /\ fd_ret f = TNamed "gint"
    /\ type_range int_bits (fd_ret f)
       = Some (gint_min int_bits, gint_max int_bits)
    /\ gint_min int_bits < 0
    /\ in_gint int_bits (-1)
    /\ (forall z, in_gint int_bits (to_gint int_bits z))
    /\ (forall n, to_gint int_bits n = n <-> in_gint int_bits n)
    /\ to_gint int_bits (gint_max int_bits + 1) = gint_min int_bits.
Proof.
  exists push_prototype. rewrite declarations_eq.
  pose proof half_pos as Hh.
  split; [reflexivity |]. split; [reflexivity |]. split; [reflexivity |].
  split; [unfold gint_min; lia |].
  split; [unfold in_gint, gint_min, gint_max; lia |].
  split; [exact to_gint_in_range |].
  split.
  - intros n. split; [| apply to_gint_small].
    intros <-. apply to_gint_in_range.
  - unfold to_gint, gint_max, gint_min.
    replace (half - 1 + 1 + half) with (2 ^ int_bits) by (rewrite pow_int_bits; lia).
    rewrite Z.mod_same by (rewrite pow_int_bits; lia). lia.
Qed.

End GIntRange.

Lemma push_return_range_witness :
  (16 <= 32)%Z
  /\ exists f, lookup_decl "luaH_download_push" declarations = Some f
      /\ fd_ret f = TNamed "gint"
      /\ GLib.type_range 32 (fd_ret f) = Some (GLib.gint_min 32, GLib.gint_max 32)
      /\ (GLib.gint_min 32 < 0)%Z
      /\ GLib.in_gint 32 (-1)
      /\ (forall z, GLib.in_gint 32 (GLib.to_gint 32 z))
      /\ (forall n, GLib.to_gint 32 n = n <-> GLib.in_gint 32 n)
      /\ GLib.to_gint 32 (GLib.gint_max 32 + 1) = GLib.gint_min 32.
Proof.
  split; [lia | apply (push_return_range 32); lia].
Defined.

Example gint_32_bounds :
  GLib.gint_min 32 = (-2147483648)%Z /\ GLib.gint_max 32 = 2147483647%Z
  /\ GLib.to_gint 32 2147483648 = (-2147483648)%Z
  /\ GLib.to_gint 32 1 = 1%Z.
Proof. repeat split. Qed.

(** ** The two routines, as the spec describes them *)

Section Routines.
Import Lua.

(** C4: the integer the push routine returns is the number of values
    it has placed on the evaluation stack: the stack after the call is
    the stack before it under that many new values. *)
Theorem push_returns_count (L : lua_State) (d : WebKitDownload) :
  exists pushed : list value,
    stack (fst (luaH_download_push L d)) = (pushed ++ stack L)%list
    /\ snd (luaH_download_push L d) = Z.of_nat (length pushed)
    /\ Z.of_nat (length (stack (fst (luaH_download_push L d))))
       = (Z.of_nat (length (stack L)) + snd (luaH_download_push L d))%Z.
Proof.
  exists [VObject "download" d]. unfold luaH_download_push, lua_push.
  cbn [fst snd stack length app]. repeat split. lia.
Qed.

(** C5: after the setup routine has run on a runtime, the download
    class is registered in that runtime's global environment, whatever
    the runtime held before. *)
Theorem setup_registers_class (L : lua_State) :
  globals (download_class_setup L) !! "download" = Some (VClass "download").
Proof.
  unfold download_class_setup, lua_setglobal. cbn [globals].
  apply lookup_insert_eq.
Qed.

(** The setup touches nothing else: the stack and the other globals
    are as they were. *)
Lemma setup_frame (L : lua_State) (k : string) :
  k <> "download" ->
  globals (download_class_setup L) !! k = globals L !! k
  /\ stack (download_class_setup L) = stack L.
Proof.
  intros Hk. unfold download_class_setup, lua_setglobal. cbn [globals stack].
  split; [| reflexivity]. apply lookup_insert_ne. congruence.
Qed.

End Routines.

(** ** The header in any translation unit *)

Section HeaderInContext.
Import Cpp.

Variable system_header : string -> gmap string string -> gmap string string * list line_kind.

Local Abbreviation cpp_line := (cpp_line system_header).
Local Abbreviation include_lines := (include_lines system_header).
Local Abbreviation include_header := (include_header system_header).

(** The unit is either left alone, or it was live with the guard
    undefined. *)
Lemma include_header_cases t :
  include_header t = t
  \/ (defined LUAKIT_CLIB_DOWNLOAD_H (macros t) = false /\ active t = true).
Proof.
  destruct (defined LUAKIT_CLIB_DOWNLOAD_H (macros t)) eqn:Hdef.
  { left. apply include_header_skipped. auto. }
  destruct (active t) eqn:Hact.
  - right. auto.
  - left. apply include_header_skipped. auto.
Qed.

Lemma include_header_conds t : conds (include_header t) = conds t.
Proof.
  destruct (include_header_cases t) as [-> | [Hdef Hact]]; [reflexivity |].
  destruct t as [ms cs o]. cbn [macros] in Hdef.
  rewrite include_header_first by assumption. reflexivity.
Qed.

Lemma active_by_conds t u : conds t = conds u -> active t = active u.
Proof. unfold active. intros ->. reflexivity. Qed.


(** X1: the header is balanced.  Whatever the unit and the system
    headers, the conditionals open after the inclusion are the ones that
    were open before it: the [#ifndef] of line 22 is closed by the
    [#endif] of line 31 and by nothing else. *)
Theorem include_keeps_conditionals (t : tu) :
  conds (include_header t) = conds t
  /\ active (include_header t) = active t.
Proof.
  split; [apply include_header_conds |].
  apply active_by_conds, include_header_conds.
Qed.



(** X6: the header defines no macro but its guard.  When the system
    headers leave a macro [m] alone, and [m] is not the guard, [m] means
    after the inclusion what it meant before it. *)
Theorem header_defines_only_guard (m : string) (t : tu) :
  (forall h ms, fst (system_header h ms) !! m = ms !! m) ->
  m <> LUAKIT_CLIB_DOWNLOAD_H ->
  macros (include_header t) !! m = macros t !! m.
Proof.
  intros Hsys Hm.
  destruct (include_header_cases t) as [-> | [Hdef Hact]]; [reflexivity |].
  destruct t as [ms cs o]. cbn [macros] in Hdef.
  rewrite include_header_first by assumption. cbn [macros].
  rewrite !Hsys. apply lookup_insert_ne. congruence.
Qed.

Section GuardKept.

Hypothesis system_header_keeps_guard :
  forall h ms,
    defined LUAKIT_CLIB_DOWNLOAD_H ms = true ->
    defined LUAKIT_CLIB_DOWNLOAD_H (fst (system_header h ms)) = true.




End GuardKept.

End HeaderInContext.

(** X2: under a defined guard, or inside a skipped group, the header
    is not read at all: the unit stays exactly as it was, and the system
    headers play no part in the result. *)
Theorem include_skipped_reads_nothing
    (sh1 sh2 : string -> gmap string string -> gmap string string * list line_kind)
    (t : Cpp.tu) :
  Cpp.defined LUAKIT_CLIB_DOWNLOAD_H (Cpp.macros t) = true \/ Cpp.active t = false ->
  Cpp.include_header sh1 t = t
  /\ Cpp.include_header sh1 t = Cpp.include_header sh2 t.
Proof.
  intros Hskip. rewrite !include_header_skipped by exact Hskip.
  split; reflexivity.
Qed.

Lemma include_skipped_reads_nothing_witness :
  (Cpp.defined LUAKIT_CLIB_DOWNLOAD_H
     (Cpp.macros (Cpp.TU (<[LUAKIT_CLIB_DOWNLOAD_H := ""]> ∅) [] [])) = true
   \/ Cpp.active (Cpp.TU (<[LUAKIT_CLIB_DOWNLOAD_H := ""]> ∅) [] []) = false)
  /\ Cpp.include_header Cpp.guarded_system_header
       (Cpp.TU (<[LUAKIT_CLIB_DOWNLOAD_H := ""]> ∅) [] [])
     = Cpp.TU (<[LUAKIT_CLIB_DOWNLOAD_H := ""]> ∅) [] []
  /\ Cpp.include_header Cpp.guarded_system_header
       (Cpp.TU (<[LUAKIT_CLIB_DOWNLOAD_H := ""]> ∅) [] [])
     = Cpp.include_header Cpp.silent_system_header
         (Cpp.TU (<[LUAKIT_CLIB_DOWNLOAD_H := ""]> ∅) [] []).
Proof.
  assert (Cpp.defined LUAKIT_CLIB_DOWNLOAD_H
            (Cpp.macros (Cpp.TU (<[LUAKIT_CLIB_DOWNLOAD_H := ""]> ∅) [] [])) = true)
    as Hdef by (vm_compute; reflexivity).
  split; [left; exact Hdef |].
  apply (include_skipped_reads_nothing
           Cpp.guarded_system_header Cpp.silent_system_header).
  left. exact Hdef.
Defined.


Lemma header_defines_only_guard_witness :
  (forall h ms, fst (Cpp.silent_system_header h ms) !! "LUA_VERSION" = ms !! "LUA_VERSION")
  /\ "LUA_VERSION" <> LUAKIT_CLIB_DOWNLOAD_H
  /\ Cpp.macros (Cpp.include_header Cpp.silent_system_header
                   (Cpp.TU (<["LUA_VERSION" := "5.1"]> ∅) [] [])) !! "LUA_VERSION"
     = Cpp.macros (Cpp.TU (<["LUA_VERSION" := "5.1"]> ∅) [] []) !! "LUA_VERSION".
Proof.
  split; [intros h ms; reflexivity |].
  split; [discriminate |].
  apply (header_defines_only_guard Cpp.silent_system_header "LUA_VERSION");
    [intros h ms; reflexivity | discriminate].
Defined.


(** In a unit that skipped the header (here: inside a group that is not
    taken), a later inclusion in live code does contribute: the guard
    was never defined. *)
Example inclusion_after_skipped_group :
  Cpp.out
    (Cpp.include_header Cpp.silent_system_header
       (Cpp.include_lines Cpp.silent_system_header [KDirective Dendif]
          (Cpp.include_header Cpp.silent_system_header (Cpp.TU ∅ [false] []))))
  = [KPrototype setup_prototype; KPrototype push_prototype].
Proof. vm_compute. reflexivity. Qed.
